(** * The CZSWAP and CXSWAP gates

    A shallow embedding of [cirq-core/cirq/ops/cxswap_czswap.py]: the two
    classes [CZSWAPGate] and [CXSWAPGate], each a stateless two-qubit gate
    that reports a constant unitary matrix and decomposes into a SWAP followed
    by a controlled operation.

    Layout: the Python values the module handles (exceptions, completions,
    generators, integer matrices), then one Rocq module per Python class with
    its methods under their source names, then method dispatch on the class
    of an instance, then the collaborators that live outside this file of the
    repository, and last the theorems. *)

From Stdlib Require Import ZArith List Bool.
From stdpp Require Import base decidable list strings gmap.

Local Open Scope Z_scope.
Local Open Scope string_scope.

(** ** Python values *)

(** The exceptions that can surface from this module. [ValueError] is what
    the tuple unpacking [a, b = qubits] raises on a sequence whose length is
    not two; [StopIteration] ends an iteration. *)
Inductive exception : Type :=
| ValueError
| StopIteration.

(** How the evaluation of a call ends: with a value, or with an exception
    that propagates to the caller. *)
Inductive completion (A : Type) : Type :=
| Normal (value : A)
| Raised (e : exception).

Arguments Normal {A} value.
Arguments Raised {A} e.

#[global] Instance exception_eq_dec : EqDecision exception.
Proof. solve_decision. Defined.

(** *** Generators

    A function whose body contains [yield] returns a generator object when it
    is called; no statement of the body runs before the first [next].  Each
    resumption runs the body up to the next [yield], to a [raise], or to the
    end of the body.  The bodies of this module are straight-line code, so a
    generator is a finite tree of suspended resumptions. *)
Section Generators.
Context {Item : Type}.

Inductive generator : Type :=
| Gen (resume : unit -> step)
with step : Type :=
| Yield (item : Item) (rest : generator)
| Raise (e : exception)
| Return.

(** A generator whose body has finished, normally or by an exception. *)
Definition closed : generator := Gen (fun _ => Return).

(** [next(g)]: the outcome of one resumption, and the generator afterwards.
    A body that returns raises [StopIteration]; a generator that raised is
    closed. *)
Definition next (g : generator) : completion Item * generator :=
  match g with
  | Gen resume =>
      match resume tt with
      | Yield item rest => (Normal item, rest)
      | Raise e => (Raised e, closed)
      | Return => (Raised StopIteration, closed)
      end
  end.

(** Drives a generator to its end: the items it yielded, in order, and the
    exception that stopped it, if one did. *)
Fixpoint drain (g : generator) : list Item * option exception :=
  match g with
  | Gen resume =>
      match resume tt with
      | Yield item rest => let (items, err) := drain rest in (item :: items, err)
      | Raise e => ([], Some e)
      | Return => ([], None)
      end
  end.

(** [list(g)]: every item of the generator, or the exception its body raised
    (the items yielded before it are dropped with the half-built list). *)
Definition list_of (g : generator) : completion (list Item) :=
  match drain g with
  | (items, None) => Normal items
  | (_, Some e) => Raised e
  end.

End Generators.

Arguments generator Item : clear implicits.
Arguments step Item : clear implicits.

(** *** Matrices

    [np.array] of a list of rows of Python integers: an integer matrix. *)
Definition ndarray : Type := list (list Z).

(** ** Classes and instances *)

(** The two classes the module defines. *)
Inductive GateClass : Type :=
| CZSWAPGate
| CXSWAPGate.

#[global] Instance GateClass_eq_dec : EqDecision GateClass.
Proof. solve_decision. Defined.

(** The classes named in the [class] statements' base lists. *)
Inductive BaseClass : Type :=
| InterchangeableQubitsGate   (* gate_features.InterchangeableQubitsGate *)
| Gate.                       (* raw_types.Gate *)

#[global] Instance BaseClass_eq_dec : EqDecision BaseClass.
Proof. solve_decision. Defined.

(** An instance: neither class has an [__init__] or an attribute, so an
    object is its class and its identity (what [id] and [is] observe). *)
Record GateObject : Type := { ob_type : GateClass; ob_id : nat }.

#[global] Instance GateObject_eq_dec : EqDecision GateObject.
Proof. solve_decision. Defined.

(** Python values a gate can meet in a comparison or hold in a tuple. *)
Inductive PyValue : Type :=
| PyNone
| PyInt (n : Z)
| PyStr (s : string)
| PyObject (type_name : string) (id : nat).

#[global] Instance PyValue_eq_dec : EqDecision PyValue.
Proof. solve_decision. Defined.

Definition tuple : Type := list PyValue.

(** ** Operations on qubits *)

(** Modelled from the spec: the operation constructors [cirq.SWAP],
    [cirq.CZ] and [cirq.CNOT], which are defined outside
    [cxswap_czswap.py]; the specification lists them as available
    constructors [SWAP(qubitA, qubitB)], [CZ(qubitA, qubitB)] and
    [CNOT(control, target)] that take qubit handles positionally.  A qubit
    handle is opaque: any type. *)
Inductive Operation (Qubit : Type) : Type :=
| SWAP (a b : Qubit)
| CZ (a b : Qubit)
| CNOT (control target : Qubit).

Arguments SWAP {Qubit} a b.
Arguments CZ {Qubit} a b.
Arguments CNOT {Qubit} control target.

(** The qubits an operation references, in operand order. *)
Definition op_qubits {Qubit : Type} (op : Operation Qubit) : list Qubit :=
  match op with
  | SWAP a b => [a; b]
  | CZ a b => [a; b]
  | CNOT control target => [control; target]
  end.

(** ** class CZSWAPGate(gate_features.InterchangeableQubitsGate, raw_types.Gate) *)
Module CZSWAPGate.

Definition __bases__ : list BaseClass := [InterchangeableQubitsGate; Gate].

Definition _num_qubits_ (self : GateObject) : Z := 2.

Definition _unitary_ (self : GateObject) : option ndarray :=
  Some
    [ [1; 0; 0; 0];
      [0; 0; 1; 0];
      [0; 1; 0; 0];
      [0; 0; 0; -1] ].

Definition _has_unitary_ (self : GateObject) : bool := true.

(** [a, b = qubits] binds exactly when [qubits] has two elements and raises
    [ValueError] otherwise; it runs at the first resumption. *)
Definition _decompose_ {Qubit : Type} (self : GateObject) (qubits : list Qubit)
  : completion (generator (Operation Qubit)) :=
  Normal (Gen (fun _ =>
    match qubits with
    | [a; b] =>
        Yield (SWAP a b) (Gen (fun _ =>
        Yield (CZ a b) (Gen (fun _ =>
        Return))))
    | _ => Raise ValueError
    end)).

Definition _circuit_diagram_info_ {Args : Type} (self : GateObject) (args : Args)
  : string * string :=
  ("CZSWAPGate", "CZSWAPGate").

Definition _value_equality_values_ (self : GateObject) : tuple := [].

Definition __repr__ (self : GateObject) : string := "cirq.CZSWAPGate()".

End CZSWAPGate.

(** ** class CXSWAPGate(raw_types.Gate) *)
Module CXSWAPGate.

Definition __bases__ : list BaseClass := [Gate].

Definition _num_qubits_ (self : GateObject) : Z := 2.

Definition _unitary_ (self : GateObject) : option ndarray :=
  Some
    [ [1; 0; 0; 0];
      [0; 0; 1; 0];
      [0; 0; 0; 1];
      [0; 1; 0; 0] ].

Definition _has_unitary_ (self : GateObject) : bool := true.

Definition _decompose_ {Qubit : Type} (self : GateObject) (qubits : list Qubit)
  : completion (generator (Operation Qubit)) :=
  Normal (Gen (fun _ =>
    match qubits with
    | [a; b] =>
        Yield (SWAP a b) (Gen (fun _ =>
        Yield (CNOT a b) (Gen (fun _ =>
        Return))))
    | _ => Raise ValueError
    end)).

Definition _circuit_diagram_info_ {Args : Type} (self : GateObject) (args : Args)
  : string * string :=
  ("CXSWAPGate", "CXSWAPGate").

Definition _value_equality_values_ (self : GateObject) : tuple := [].

Definition __repr__ (self : GateObject) : string := "cirq.CXSWAPGate()".

End CXSWAPGate.

(** ** Method dispatch

    A method call on an instance runs the method of the instance's class. *)

Definition new (cls : GateClass) (id : nat) : GateObject :=
  {| ob_type := cls; ob_id := id |}.

Definition bases (cls : GateClass) : list BaseClass :=
  match cls with
  | CZSWAPGate => CZSWAPGate.__bases__
  | CXSWAPGate => CXSWAPGate.__bases__
  end.

Definition num_qubits (self : GateObject) : Z :=
  match ob_type self with
  | CZSWAPGate => CZSWAPGate._num_qubits_ self
  | CXSWAPGate => CXSWAPGate._num_qubits_ self
  end.

Definition unitary (self : GateObject) : option ndarray :=
  match ob_type self with
  | CZSWAPGate => CZSWAPGate._unitary_ self
  | CXSWAPGate => CXSWAPGate._unitary_ self
  end.

Definition has_unitary (self : GateObject) : bool :=
  match ob_type self with
  | CZSWAPGate => CZSWAPGate._has_unitary_ self
  | CXSWAPGate => CXSWAPGate._has_unitary_ self
  end.

Definition decompose {Qubit : Type} (self : GateObject) (qubits : list Qubit)
  : completion (generator (Operation Qubit)) :=
  match ob_type self with
  | CZSWAPGate => CZSWAPGate._decompose_ self qubits
  | CXSWAPGate => CXSWAPGate._decompose_ self qubits
  end.

Definition value_equality_values (self : GateObject) : tuple :=
  match ob_type self with
  | CZSWAPGate => CZSWAPGate._value_equality_values_ self
  | CXSWAPGate => CXSWAPGate._value_equality_values_ self
  end.

Definition repr (self : GateObject) : string :=
  match ob_type self with
  | CZSWAPGate => CZSWAPGate.__repr__ self
  | CXSWAPGate => CXSWAPGate.__repr__ self
  end.

(** The caller of [decompose] that wants the sub-operations: it drives the
    generator to its end.  An exception raised by the call or by the body
    reaches the caller in place of the list. *)
Definition decompose_list {Qubit : Type} (self : GateObject) (qubits : list Qubit)
  : completion (list (Operation Qubit)) :=
  match decompose self qubits with
  | Normal g => list_of g
  | Raised e => Raised e
  end.

(** ** Linear algebra on integer matrices *)

Definition dot (u v : list Z) : Z := fold_right Z.add 0 (zip_with Z.mul u v).

(** The matrix-vector product [m @ v]. *)
Definition matvec (m : ndarray) (v : list Z) : list Z := map (fun row => dot row v) m.

(** A vector multiplied by a scalar. *)
Definition scale (c : Z) (v : list Z) : list Z := map (Z.mul c) v.

(** ** Two-qubit basis states *)

(** The two wires of a two-qubit gate: its first and its second operand. *)
Inductive wire : Type :=
| wire0
| wire1.

(** A computational basis state [|a b>]: the bit of the first qubit, then the
    bit of the second. *)
Definition basis_state : Type := (bool * bool)%type.

(** The basis states in the order [|00>, |01>, |10>, |11>]. *)
Definition basis_states : list basis_state :=
  [(false, false); (false, true); (true, false); (true, true)].

(** The amplitude vector of a basis state. *)
Definition ket (s : basis_state) : list Z :=
  map (fun t => if bool_decide (s = t) then 1 else 0) basis_states.

Definition computational_basis : list (list Z) := map ket basis_states.

Definition bit (w : wire) (s : basis_state) : bool :=
  match w with
  | wire0 => fst s
  | wire1 => snd s
  end.

Definition set_bit (w : wire) (v : bool) (s : basis_state) : basis_state :=
  match w with
  | wire0 => (v, snd s)
  | wire1 => (fst s, v)
  end.

(** Modelled from the spec: what the three collaborator operations do, whose
    code is outside [cxswap_czswap.py].  SWAP exchanges the states of its two
    qubits; CZ, the controlled phase flip, negates the amplitude when both
    qubits are set; CNOT, the controlled bit flip, flips the target when the
    control is set.  Each maps a basis state to an amplitude and a basis
    state. *)
Definition op_action (op : Operation wire) (s : basis_state) : Z * basis_state :=
  match op with
  | SWAP a b => (1, set_bit b (bit a s) (set_bit a (bit b s) s))
  | CZ a b => (if bit a s && bit b s then -1 else 1, s)
  | CNOT control target => (1, set_bit target (xorb (bit control s) (bit target s)) s)
  end.

(** The matrix of an action in the basis order above: column [t] holds the
    image of [|t>]. *)
Definition matrix_of (f : basis_state -> Z * basis_state) : ndarray :=
  map (fun s => map (fun t => if bool_decide (snd (f t) = s) then fst (f t) else 0)
                    basis_states)
      basis_states.

Definition op_unitary (op : Operation wire) : ndarray := matrix_of (op_action op).

(** Applies operations to an amplitude vector, the first of the list first. *)
Definition apply_ops (ops : list (Operation wire)) (v : list Z) : list Z :=
  fold_left (fun v op => matvec (op_unitary op) v) ops v.

(** ** Value equality

    Both classes are decorated with [value_equality()] and give the empty
    tuple as their [_value_equality_values_]. *)

(** The type of a value that takes part in value equality: one of the two
    classes of this module, or a class defined elsewhere. *)
Inductive PyType : Type :=
| FusedType (cls : GateClass)
| ForeignType (name : string).

#[global] Instance PyType_eq_dec : EqDecision PyType.
Proof. solve_decision. Defined.

(** What an instance can be compared with. *)
Inductive Comparand : Type :=
| AGate (g : GateObject)                            (* a CZSWAPGate or a CXSWAPGate *)
| AValueEqObject (type_name : string) (key : tuple) (* another value-equality object, such as another gate *)
| APlain (v : PyValue).                             (* any other value *)

(** The variant tag of a comparand that has one. *)
Definition value_equality_type (x : Comparand) : option PyType :=
  match x with
  | AGate g => Some (FusedType (ob_type g))
  | AValueEqObject name _ => Some (ForeignType name)
  | APlain _ => None
  end.

(** The equality key of a comparand that has one. *)
Definition value_equality_key (x : Comparand) : option tuple :=
  match x with
  | AGate g => Some (value_equality_values g)
  | AValueEqObject _ key => Some key
  | APlain _ => None
  end.

(** Modelled from the spec: the [__eq__] that the [value_equality] decorator
    installs; the decorator's code (cirq/value/value_equality_attr.py) is not
    in [cxswap_czswap.py].  The specification derives equality from
    comparing the equality key and the variant tag together, and has a
    comparison with a value of another kind return false rather than raise. *)
Definition __eq__ (self : GateObject) (other : Comparand) : completion bool :=
  match value_equality_type other, value_equality_key other with
  | Some t, Some key =>
      Normal (bool_decide (FusedType (ob_type self) = t)
              && bool_decide (value_equality_values self = key))
  | _, _ => Normal false
  end.

(** Whether a comparand is an instance of one of the two classes. *)
Definition is_fused_gate (x : Comparand) : bool :=
  match x with
  | AGate _ => true
  | _ => false
  end.

(** Equality of two instances as a boolean. *)
Definition gate_eqb (x y : GateObject) : bool :=
  match __eq__ x (AGate y) with
  | Normal b => b
  | Raised _ => false
  end.

(** ** Operations built from the two gates *)
Section GateOperations.
Context {Qubit : Type} `{Countable Qubit}.

(** [gate.on(q, ...)]: a gate applied to qubits. *)
Record GateOperation : Type := { go_gate : GateObject; go_qubits : list Qubit }.

Definition on (self : GateObject) (qubits : list Qubit) : GateOperation :=
  {| go_gate := self; go_qubits := qubits |}.

(** A gate advertises interchangeable qubits when its class lists
    [InterchangeableQubitsGate] among its bases. *)
Definition interchangeable_qubits (self : GateObject) : bool :=
  bool_decide (InterchangeableQubitsGate ∈ bases (ob_type self)).

(** Modelled from the spec: equality of operations, whose code
    (cirq/ops/gate_operation.py) is not in [cxswap_czswap.py].  Two
    operations are equal when their gates are equal and their qubits agree:
    as an unordered collection when the gate advertises interchangeable
    qubits (permuting the operands then gives an equal operation), and
    position by position otherwise. *)
Definition operation_eqb (x y : GateOperation) : bool :=
  gate_eqb (go_gate x) (go_gate y)
  && (if interchangeable_qubits (go_gate x)
      then bool_decide (list_to_set (go_qubits x) =@{gset Qubit} list_to_set (go_qubits y))
      else bool_decide (go_qubits x = go_qubits y)).

End GateOperations.

Arguments GateOperation Qubit : clear implicits.

(** ** Evaluating a constructor call *)

(** The names of the two classes, as the [class] statements give them. *)
Definition class_name (cls : GateClass) : string :=
  match cls with
  | CZSWAPGate => "CZSWAPGate"
  | CXSWAPGate => "CXSWAPGate"
  end.

(** [strip_prefix p s] is what follows [p] in [s], when [s] starts with [p]. *)
Fixpoint strip_prefix (p s : string) : option string :=
  match p, s with
  | EmptyString, _ => Some s
  | String c p', String d s' => if Ascii.eqb c d then strip_prefix p' s' else None
  | String _ _, EmptyString => None
  end.

(** Modelled from the spec: evaluating a constructor-call string with the
    framework's constructors; the evaluator and the namespace [cirq] are
    outside [cxswap_czswap.py].  A string [cirq.<Class>()] that names one of
    the two classes constructs a new instance of it, with an identity of its
    own; any other string does not evaluate to a gate. *)
Definition eval_constructor_call (text : string) (fresh_id : nat) : option GateObject :=
  match strip_prefix "cirq." text with
  | Some call =>
      match find (fun cls => String.eqb call (class_name cls ++ "()"))
                 [CZSWAPGate; CXSWAPGate] with
      | Some cls => Some (new cls fresh_id)
      | None => None
      end
  | None => None
  end.

(** ** Matrix products and transposes *)

(** Column [j] of a matrix. *)
Definition column (j : nat) (m : ndarray) : list Z := map (fun row => nth j row 0) m.

(** The number of columns, read off the first row. *)
Definition n_columns (m : ndarray) : nat :=
  match m with
  | [] => 0%nat
  | row :: _ => length row
  end.

(** The transpose [m.T]. *)
Definition transpose (m : ndarray) : ndarray :=
  map (fun j => column j m) (seq 0 (n_columns m)).

(** The matrix product [m @ n]. *)
Definition matmul (m n : ndarray) : ndarray :=
  map (fun row => map (fun j => dot row (column j n)) (seq 0 (n_columns n))) m.

(** The identity matrix [np.eye(n)]. *)
Definition identity (n : nat) : ndarray :=
  map (fun i => map (fun j => if Nat.eqb i j then 1 else 0) (seq 0 n)) (seq 0 n).

(** The squared Euclidean norm of an amplitude vector. *)
Definition norm2 (v : list Z) : Z := dot v v.

(** The relabelling of the basis that exchanges the two qubits: [|a b>]
    becomes [|b a>]. *)
Definition qubit_exchange : ndarray := matrix_of (fun s => (1, (snd s, fst s))).

(** A two-qubit matrix seen with its two qubits exchanged. *)
Definition exchange_qubits (u : ndarray) : ndarray :=
  matmul qubit_exchange (matmul u qubit_exchange).

(** ** Diagram labels *)

Definition circuit_diagram_info {Args : Type} (self : GateObject) (args : Args)
  : string * string :=
  match ob_type self with
  | CZSWAPGate => CZSWAPGate._circuit_diagram_info_ self args
  | CXSWAPGate => CXSWAPGate._circuit_diagram_info_ self args
  end.

(** The labels of a two-element tuple, one per wire, in order. *)
Definition wire_symbols (info : string * string) : list string := [fst info; snd info].

(** ** The action of a decomposition *)

(** Decomposes a gate on the given wires and applies the operations, in the
    order they were yielded, to an amplitude vector. *)
Definition decomposed_action (self : GateObject) (wires : list wire) (v : list Z)
  : completion (list Z) :=
  match decompose_list self wires with
  | Normal ops => Normal (apply_ops ops v)
  | Raised e => Raised e
  end.

(** * Properties *)

(** ** The collaborators' matrices

    The actions above give the textbook matrices of SWAP, CZ and CNOT. *)

Lemma op_unitary_SWAP :
  op_unitary (SWAP wire0 wire1)
  = [ [1; 0; 0; 0]; [0; 0; 1; 0]; [0; 1; 0; 0]; [0; 0; 0; 1] ].
Proof. reflexivity. Qed.

Lemma op_unitary_CZ :
  op_unitary (CZ wire0 wire1)
  = [ [1; 0; 0; 0]; [0; 1; 0; 0]; [0; 0; 1; 0]; [0; 0; 0; -1] ].
Proof. reflexivity. Qed.

Lemma op_unitary_CNOT :
  op_unitary (CNOT wire0 wire1)
  = [ [1; 0; 0; 0]; [0; 1; 0; 0]; [0; 0; 0; 1]; [0; 0; 1; 0] ].
Proof. reflexivity. Qed.

(** CZ does not depend on the order of its operands; CNOT does. *)
Lemma op_unitary_CZ_symmetric (a b : wire) : op_unitary (CZ a b) = op_unitary (CZ b a).
Proof. destruct a, b; reflexivity. Qed.

Lemma op_unitary_CNOT_directed :
  op_unitary (CNOT wire0 wire1) <> op_unitary (CNOT wire1 wire0).
Proof. discriminate. Qed.

(** ** Tuple unpacking *)

(** [a, b = qubits] takes the failure branch on every length other than two. *)
Lemma unpack_pair_mismatch {A B : Type} (qubits : list A) (k : A -> A -> B) (d : B) :
  length qubits <> 2%nat ->
  match qubits with
  | [a; b] => k a b
  | _ => d
  end = d.
Proof.
  destruct qubits as [ | a [ | b [ | c rest ] ] ]; cbn; intros Hlen;
    solve [ reflexivity | contradiction ].
Qed.

(** ** Stepping through a decomposition of two qubits *)

Lemma CZSWAPGate_decompose_steps {Qubit : Type} (self : GateObject) (a b : Qubit) :
  exists g0 g1 g2 g3,
    CZSWAPGate._decompose_ self [a; b] = Normal g0
    /\ next g0 = (Normal (SWAP a b), g1)
    /\ next g1 = (Normal (CZ a b), g2)
    /\ next g2 = (Raised StopIteration, g3)
    /\ next g3 = (Raised StopIteration, g3).
Proof. do 4 eexists. repeat split. Qed.

Lemma CXSWAPGate_decompose_steps {Qubit : Type} (self : GateObject) (a b : Qubit) :
  exists g0 g1 g2 g3,
    CXSWAPGate._decompose_ self [a; b] = Normal g0
    /\ next g0 = (Normal (SWAP a b), g1)
    /\ next g1 = (Normal (CNOT a b), g2)
    /\ next g2 = (Raised StopIteration, g3)
    /\ next g3 = (Raised StopIteration, g3).
Proof. do 4 eexists. repeat split. Qed.

(** ** The unitary matrices *)

(** C1: on each of the four basis vectors |00>, |01>, |10>, |11>, the matrix
    that [CZSWAPGate._unitary_] returns acts as SWAP followed by CZ, and the
    matrix that [CXSWAPGate._unitary_] returns acts as SWAP followed by CNOT
    with the first qubit as control and the second as target, in each case
    up to one scalar phase of magnitude 1 (the phase 1 serves). *)
Theorem unitary_acts_as_swap_then_controlled :
  forall self : GateObject,
    (exists (u : ndarray) (phase : Z),
        CZSWAPGate._unitary_ self = Some u
        /\ Z.abs phase = 1
        /\ Forall (fun v => matvec u v
                            = scale phase (apply_ops [SWAP wire0 wire1; CZ wire0 wire1] v))
                  computational_basis)
    /\ (exists (u : ndarray) (phase : Z),
        CXSWAPGate._unitary_ self = Some u
        /\ Z.abs phase = 1
        /\ Forall (fun v => matvec u v
                            = scale phase (apply_ops [SWAP wire0 wire1; CNOT wire0 wire1] v))
                  computational_basis).
Proof.
  intros self; split; eexists; exists 1;
    (split; [ reflexivity | split; [ reflexivity | ] ]);
    unfold computational_basis, basis_states; cbn [map];
    repeat (apply Forall_cons; split; [ vm_compute; reflexivity | ]);
    apply Forall_nil; exact I.
Qed.

(** C2: for every instance, [_unitary_] returns a matrix, never [None]; it is
    the constant matrix of the instance's class, a 4 by 4 matrix with entries
    among 0, 1 and -1; and it is the same for every instance of the class
    whatever its identity, so two calls give identical matrices. *)
Theorem unitary_is_constant :
  forall self : GateObject,
    CZSWAPGate._unitary_ self
    = Some [ [1; 0; 0; 0]; [0; 0; 1; 0]; [0; 1; 0; 0]; [0; 0; 0; -1] ]
    /\ CXSWAPGate._unitary_ self
       = Some [ [1; 0; 0; 0]; [0; 0; 1; 0]; [0; 0; 0; 1]; [0; 1; 0; 0] ]
    /\ (exists u : ndarray,
           unitary self = Some u
           /\ u = match ob_type self with
                  | CZSWAPGate => [ [1; 0; 0; 0]; [0; 0; 1; 0]; [0; 1; 0; 0]; [0; 0; 0; -1] ]
                  | CXSWAPGate => [ [1; 0; 0; 0]; [0; 0; 1; 0]; [0; 0; 0; 1]; [0; 1; 0; 0] ]
                  end
           /\ length u = 4%nat
           /\ Forall (fun row => length row = 4%nat
                                 /\ Forall (fun x => x = 0 \/ x = 1 \/ x = -1) row) u)
    /\ has_unitary self = true
    /\ (forall id : nat, unitary (new (ob_type self) id) = unitary self).
Proof.
  intros [cls id]. split; [ reflexivity | ]. split; [ reflexivity | ].
  split.
  - destruct cls; eexists; (split; [ reflexivity | ]);
      (split; [ reflexivity | ]); (split; [ reflexivity | ]);
      repeat (apply Forall_cons; split; [ split; [ reflexivity | ] | ]);
      repeat (apply Forall_cons; split; [ lia | ]);
      try (apply Forall_nil; exact I).
  - split; [ destruct cls; reflexivity | ].
    intros id'. destruct cls; reflexivity.
Qed.

(** X8: the unitary of a gate and the operations that its decomposition
    yields on the first and the second qubit act alike on every amplitude
    vector, not only on the basis vectors. *)
Lemma decomposition_consistent_with_unitary (self : GateObject) :
  exists (u : ndarray) (ops : list (Operation wire)),
    unitary self = Some u
    /\ decompose_list self [wire0; wire1] = Normal ops
    /\ forall a b c d : Z, matvec u [a; b; c; d] = apply_ops ops [a; b; c; d].
Proof.
  destruct self as [[ | ] id]; do 2 eexists;
    (split; [ reflexivity | split; [ reflexivity | ] ]);
    intros a b c d; cbv - [Z.add Z.mul Z.opp]; repeat (f_equal; try lia).
Qed.

(** ** The number of qubits *)

(** C8: for every instance of either class the qubit count is 2; the method
    takes no argument besides the instance and has no failing path. *)
Theorem num_qubits_is_two :
  forall self : GateObject,
    num_qubits self = 2
    /\ CZSWAPGate._num_qubits_ self = 2
    /\ CXSWAPGate._num_qubits_ self = 2.
Proof.
  intros [cls id]. repeat split. destruct cls; reflexivity.
Qed.

(** ** Decomposition *)

(** C3: on two qubits [q0], [q1] the decomposition of a CZSWAPGate is the
    sequence SWAP(q0, q1), CZ(q0, q1) and that of a CXSWAPGate is
    SWAP(q0, q1), CNOT(q0, q1): two operations, in this order, each on
    exactly the qubits supplied and in the order supplied. *)
Theorem decompose_two_qubits :
  forall (Qubit : Type) (self : GateObject) (q0 q1 : Qubit),
    (exists g,
        CZSWAPGate._decompose_ self [q0; q1] = Normal g
        /\ drain g = ([SWAP q0 q1; CZ q0 q1], None))
    /\ (exists g,
        CXSWAPGate._decompose_ self [q0; q1] = Normal g
        /\ drain g = ([SWAP q0 q1; CNOT q0 q1], None))
    /\ (exists ops,
        decompose_list self [q0; q1] = Normal ops
        /\ ops = match ob_type self with
                 | CZSWAPGate => [SWAP q0 q1; CZ q0 q1]
                 | CXSWAPGate => [SWAP q0 q1; CNOT q0 q1]
                 end
        /\ length ops = 2%nat
        /\ Forall (fun op => op_qubits op = [q0; q1]) ops).
Proof.
  intros Qubit [cls id] q0 q1.
  split; [ eexists; split; reflexivity | ].
  split; [ eexists; split; reflexivity | ].
  destruct cls; eexists; (split; [ reflexivity | ]); (split; [ reflexivity | ]);
    (split; [ reflexivity | ]);
    repeat (apply Forall_cons; split; [ reflexivity | ]); apply Forall_nil; exact I.
Qed.

(** The body of either [_decompose_] on a sequence of the wrong length: the
    generator exists, and its first resumption raises [ValueError]. *)
Lemma decompose_wrong_length {Qubit : Type} (self : GateObject) (qubits : list Qubit) :
  length qubits <> 2%nat ->
  exists resume,
    decompose self qubits = Normal (Gen resume) /\ resume tt = Raise ValueError.
Proof.
  intros Hlen. destruct self as [[ | ] id]; eexists; (split; [ reflexivity | ]);
    cbv beta; apply unpack_pair_mismatch; exact Hlen.
Qed.

(** C6: on every sequence of qubits whose length is not 2, decomposing with
    either class ends in [ValueError] for the caller, and the generator
    yields no operation before it. *)
Theorem decompose_wrong_arity_raises :
  forall (Qubit : Type) (self : GateObject) (qubits : list Qubit),
    length qubits <> 2%nat ->
    decompose_list self qubits = Raised ValueError
    /\ exists g,
        decompose self qubits = Normal g /\ drain g = ([], Some ValueError).
Proof.
  intros Qubit self qubits Hlen.
  destruct (decompose_wrong_length self qubits Hlen) as (resume & Hcall & Hbody).
  split.
  - unfold decompose_list, list_of. rewrite Hcall. cbn. rewrite Hbody. reflexivity.
  - exists (Gen resume). split; [ exact Hcall | ]. cbn. rewrite Hbody. reflexivity.
Qed.

Lemma decompose_wrong_arity_raises_witness :
  length [5; 6; 7]%nat <> 2%nat
  /\ decompose_list (new CZSWAPGate 0) [5; 6; 7]%nat = Raised ValueError
  /\ exists g,
      decompose (new CZSWAPGate 0) [5; 6; 7]%nat = Normal g
      /\ drain g = ([], Some ValueError).
Proof.
  split; [ cbn; lia | ].
  apply (decompose_wrong_arity_raises nat (new CZSWAPGate 0) [5; 6; 7]%nat).
  cbn; lia.
Defined.

(** C10: the decomposition is lazy.  On a sequence of qubits whose length is
    not 2 the call itself completes and returns a generator; the
    [ValueError] is raised by the first [next], which leaves the generator
    closed, and no operation was yielded before it. *)
Theorem decompose_is_lazy :
  forall (Qubit : Type) (self : GateObject) (qubits : list Qubit),
    length qubits <> 2%nat ->
    exists g,
      decompose self qubits = Normal g
      /\ next g = (Raised ValueError, closed)
      /\ fst (drain g) = []
      /\ next closed = (Raised StopIteration, @closed (Operation Qubit)).
Proof.
  intros Qubit self qubits Hlen.
  destruct (decompose_wrong_length self qubits Hlen) as (resume & Hcall & Hbody).
  exists (Gen resume). split; [ exact Hcall | ].
  cbn. rewrite Hbody. repeat split.
Qed.

Lemma decompose_is_lazy_witness :
  length [5]%nat <> 2%nat
  /\ exists g,
      decompose (new CXSWAPGate 1) [5]%nat = Normal g
      /\ next g = (Raised ValueError, closed)
      /\ fst (drain g) = []
      /\ next closed = (Raised StopIteration, @closed (Operation nat)).
Proof.
  split; [ cbn; lia | ].
  apply (decompose_is_lazy nat (new CXSWAPGate 1) [5]%nat).
  cbn; lia.
Defined.

(** ** Equality of gates *)

(** Equality of two instances is decided by their classes alone. *)
Lemma eq_gate_by_class (a b : GateObject) :
  __eq__ a (AGate b) = Normal (bool_decide (ob_type a = ob_type b)).
Proof.
  destruct a as [[ | ] i], b as [[ | ] j]; reflexivity.
Qed.

Lemma gate_eqb_by_class (a b : GateObject) :
  gate_eqb a b = bool_decide (ob_type a = ob_type b).
Proof. unfold gate_eqb. rewrite eq_gate_by_class. reflexivity. Qed.

(** C5: two instances of the same class are equal, a CZSWAPGate and a
    CXSWAPGate are not, in either order; the result is a function of the two
    classes and of the equality key, which is the empty tuple, and not of
    the objects' identities. *)
Theorem value_equality_by_class :
  (forall (cls : GateClass) (i j : nat),
      __eq__ (new cls i) (AGate (new cls j)) = Normal true)
  /\ (forall i j : nat,
         __eq__ (new CZSWAPGate i) (AGate (new CXSWAPGate j)) = Normal false
         /\ __eq__ (new CXSWAPGate j) (AGate (new CZSWAPGate i)) = Normal false)
  /\ (forall a b : GateObject,
         value_equality_values a = []
         /\ __eq__ a (AGate b) = Normal (bool_decide (ob_type a = ob_type b))
         /\ forall i j : nat,
             __eq__ (new (ob_type a) i) (AGate (new (ob_type b) j)) = __eq__ a (AGate b)).
Proof.
  split; [ intros [ | ] i j; reflexivity | ].
  split; [ intros i j; split; reflexivity | ].
  intros a b. split; [ destruct a as [[ | ] i]; reflexivity | ].
  split; [ apply eq_gate_by_class | ].
  intros i j. rewrite !eq_gate_by_class. reflexivity.
Qed.

(** C7: comparing an instance with a value that is not an instance of
    either class, whether another value-equality object or any other value,
    completes normally with [False]. *)
Theorem eq_other_value_is_false :
  forall (self : GateObject) (other : Comparand),
    is_fused_gate other = false ->
    __eq__ self other = Normal false.
Proof.
  intros self [g | name key | v] Hother; cbn in Hother.
  - discriminate.
  - unfold __eq__. cbn. reflexivity.
  - reflexivity.
Qed.

Lemma eq_other_value_is_false_witness :
  is_fused_gate (AValueEqObject "CZPowGate" [PyInt 1; PyInt 0]) = false
  /\ __eq__ (new CZSWAPGate 0) (AValueEqObject "CZPowGate" [PyInt 1; PyInt 0])
     = Normal false.
Proof.
  split; [ reflexivity | ].
  apply (eq_other_value_is_false (new CZSWAPGate 0)
           (AValueEqObject "CZPowGate" [PyInt 1; PyInt 0])).
  reflexivity.
Defined.

(** ** Interchangeable qubits *)

(** C4: for distinct qubits [q0], [q1], a CZSWAPGate on (q0, q1) equals a
    CZSWAPGate on (q1, q0), and the class advertises interchangeable qubits;
    a CXSWAPGate on (q0, q1) differs from a CXSWAPGate on (q1, q0), and the
    class does not advertise interchangeable qubits. *)
Theorem interchangeable_only_for_CZSWAP :
  forall (Qubit : Type) (Qubit_eq_dec : EqDecision Qubit)
         (Qubit_countable : Countable Qubit) (q0 q1 : Qubit),
    q0 <> q1 ->
    forall i j : nat,
      operation_eqb (on (new CZSWAPGate i) [q0; q1]) (on (new CZSWAPGate j) [q1; q0]) = true
      /\ interchangeable_qubits (new CZSWAPGate i) = true
      /\ operation_eqb (on (new CXSWAPGate i) [q0; q1]) (on (new CXSWAPGate j) [q1; q0]) = false
      /\ interchangeable_qubits (new CXSWAPGate i) = false.
Proof.
  intros Qubit Qubit_eq_dec Qubit_countable q0 q1 Hdistinct i j.
  split.
  - unfold operation_eqb. rewrite gate_eqb_by_class. cbn.
    apply bool_decide_eq_true, set_eq. intros q.
    rewrite !elem_of_union, !elem_of_singleton. tauto.
  - split; [ reflexivity | ]. split; [ | reflexivity ].
    unfold operation_eqb. rewrite gate_eqb_by_class. cbn.
    apply bool_decide_eq_false. intros Hswap. apply Hdistinct. congruence.
Qed.

Lemma interchangeable_only_for_CZSWAP_witness :
  (3 <> 8)%nat
  /\ operation_eqb (on (new CZSWAPGate 0) [3; 8]%nat) (on (new CZSWAPGate 1) [8; 3]%nat) = true
  /\ interchangeable_qubits (new CZSWAPGate 0) = true
  /\ operation_eqb (on (new CXSWAPGate 0) [3; 8]%nat) (on (new CXSWAPGate 1) [8; 3]%nat) = false
  /\ interchangeable_qubits (new CXSWAPGate 0) = false.
Proof.
  split; [ lia | ].
  apply (interchangeable_only_for_CZSWAP nat _ _ 3%nat 8%nat); lia.
Defined.

(** ** The textual representation *)

(** C9: [repr] of an instance is the constructor call of its class,
    [cirq.<Class>()], and evaluating that string constructs an instance
    that is equal to the original, in both directions of the comparison. *)
Theorem repr_round_trip :
  forall (self : GateObject) (fresh_id : nat),
    repr self = "cirq." ++ class_name (ob_type self) ++ "()"
    /\ CZSWAPGate.__repr__ self = "cirq.CZSWAPGate()"
    /\ CXSWAPGate.__repr__ self = "cirq.CXSWAPGate()"
    /\ exists g : GateObject,
        eval_constructor_call (repr self) fresh_id = Some g
        /\ ob_type g = ob_type self
        /\ __eq__ g (AGate self) = Normal true
        /\ __eq__ self (AGate g) = Normal true.
Proof.
  intros [[ | ] id] fresh_id; (split; [ reflexivity | ]);
    (split; [ reflexivity | ]); (split; [ reflexivity | ]);
    eexists; (split; [ vm_compute; reflexivity | ]); repeat split.
Qed.

(** * Further properties of the two classes *)

(** A vector of length four has four components. *)
Lemma vector4_inv (v : list Z) :
  length v = 4%nat -> exists a b c d : Z, v = [a; b; c; d].
Proof.
  destruct v as [ | a [ | b [ | c [ | d [ | e rest ] ] ] ] ]; cbn; intros Hlen;
    try discriminate.
  exists a, b, c, d. reflexivity.
Qed.

(** ** The matrices are unitary *)

(** X1: the matrix that [_unitary_] returns is orthogonal, hence unitary:
    its transpose is its inverse on both sides, for either class; this is
    what [_has_unitary_] promises by returning [True]. *)
Theorem unitary_is_orthogonal :
  forall self : GateObject,
    exists u : ndarray,
      unitary self = Some u
      /\ has_unitary self = true
      /\ matmul (transpose u) u = identity 4
      /\ matmul u (transpose u) = identity 4.
Proof.
  intros [[ | ] id]; eexists; (split; [ reflexivity | ]); repeat split.
Qed.

(** X2: the matrix of either class preserves the squared norm of every
    four-component amplitude vector, and gives a four-component vector. *)
Theorem unitary_preserves_norm :
  forall (self : GateObject) (v : list Z),
    length v = 4%nat ->
    exists u : ndarray,
      unitary self = Some u
      /\ length (matvec u v) = 4%nat
      /\ norm2 (matvec u v) = norm2 v.
Proof.
  intros [[ | ] id] v Hlen;
    destruct (vector4_inv v Hlen) as (a & b & c & d & ->);
    eexists; (split; [ reflexivity | ]); (split; [ reflexivity | ]);
    cbv - [Z.add Z.mul Z.opp]; ring.
Qed.

Lemma unitary_preserves_norm_witness :
  length [3; -1; 4; 2] = 4%nat
  /\ exists u : ndarray,
      unitary (new CXSWAPGate 0) = Some u
      /\ length (matvec u [3; -1; 4; 2]) = 4%nat
      /\ norm2 (matvec u [3; -1; 4; 2]) = norm2 [3; -1; 4; 2].
Proof.
  split; [ reflexivity | ].
  apply (unitary_preserves_norm (new CXSWAPGate 0) [3; -1; 4; 2]).
  reflexivity.
Defined.

(** X3: applying the CZSWAP matrix twice gives back every vector; applying
    the CXSWAP matrix three times gives back every vector, while applying it
    twice does not: it takes |01> to |10>. *)
Theorem unitary_powers :
  forall (self : GateObject) (v : list Z),
    length v = 4%nat ->
    exists ucz ucx : ndarray,
      CZSWAPGate._unitary_ self = Some ucz
      /\ CXSWAPGate._unitary_ self = Some ucx
      /\ matvec ucz (matvec ucz v) = v
      /\ matvec ucx (matvec ucx (matvec ucx v)) = v
      /\ matvec ucx (matvec ucx (ket (false, true))) = ket (true, false).
Proof.
  intros self v Hlen. destruct (vector4_inv v Hlen) as (a & b & c & d & ->).
  do 2 eexists. split; [ reflexivity | ]. split; [ reflexivity | ].
  split; [ cbv - [Z.add Z.mul Z.opp]; repeat (f_equal; try lia) | ].
  split; [ cbv - [Z.add Z.mul Z.opp]; repeat (f_equal; try lia) | ].
  reflexivity.
Qed.

Lemma unitary_powers_witness :
  length [3; -1; 4; 2] = 4%nat
  /\ exists ucz ucx : ndarray,
      CZSWAPGate._unitary_ (new CZSWAPGate 0) = Some ucz
      /\ CXSWAPGate._unitary_ (new CZSWAPGate 0) = Some ucx
      /\ matvec ucz (matvec ucz [3; -1; 4; 2]) = [3; -1; 4; 2]
      /\ matvec ucx (matvec ucx (matvec ucx [3; -1; 4; 2])) = [3; -1; 4; 2]
      /\ matvec ucx (matvec ucx (ket (false, true))) = ket (true, false).
Proof.
  split; [ reflexivity | ].
  apply (unitary_powers (new CZSWAPGate 0) [3; -1; 4; 2]).
  reflexivity.
Defined.

(** ** Exchanging the two qubits *)

(** X4: the matrix of a gate is unchanged by exchanging its two qubits
    exactly when the gate's class lists [InterchangeableQubitsGate] among
    its bases: it is for CZSWAPGate and it is not for CXSWAPGate, whose
    exchanged matrix is its transpose, the inverse. *)
Theorem unitary_exchange_invariant_iff_interchangeable :
  forall self : GateObject,
    exists u : ndarray,
      unitary self = Some u
      /\ (exchange_qubits u = u <-> interchangeable_qubits self = true)
      /\ (interchangeable_qubits self = false -> exchange_qubits u = transpose u).
Proof.
  intros [[ | ] id]; eexists; (split; [ reflexivity | ]); split.
  - split; intros _; reflexivity.
  - intros Hno. vm_compute in Hno. discriminate Hno.
  - split; intros Habs; vm_compute in Habs; discriminate Habs.
  - intros _. reflexivity.
Qed.

(** X5: decomposing on the two wires in reversed order succeeds for either
    class, and it acts on every four-component vector as the decomposition
    in the original order does exactly when the class lists
    [InterchangeableQubitsGate] among its bases. *)
Theorem decomposition_order_insensitive_iff_interchangeable :
  forall self : GateObject,
    (exists ops, decompose_list self [wire1; wire0] = Normal ops /\ length ops = 2%nat)
    /\ ((forall v : list Z,
            length v = 4%nat ->
            decomposed_action self [wire1; wire0] v
            = decomposed_action self [wire0; wire1] v)
        <-> interchangeable_qubits self = true).
Proof.
  intros [[ | ] id]; (split; [ eexists; split; reflexivity | ]); split.
  - intros _. reflexivity.
  - intros _ v Hlen. destruct (vector4_inv v Hlen) as (a & b & c & d & ->).
    cbv - [Z.add Z.mul Z.opp]. repeat (f_equal; try lia).
  - intros Hsame. specialize (Hsame (ket (false, true)) eq_refl).
    vm_compute in Hsame. discriminate Hsame.
  - intros Habs. vm_compute in Habs. discriminate Habs.
Qed.

(** ** Diagram labels and the class *)

(** X6: whatever the arguments, the diagram information of a gate holds one
    label per qubit, as many as [_num_qubits_] reports; both labels are the
    name of the gate's class, the name that [repr] wraps in a constructor
    call; so two gates have the same diagram information exactly when they
    are of the same class. *)
Theorem circuit_diagram_info_labels :
  forall (Args : Type) (self other : GateObject) (args args' : Args),
    wire_symbols (circuit_diagram_info self args)
    = [class_name (ob_type self); class_name (ob_type self)]
    /\ Z.of_nat (length (wire_symbols (circuit_diagram_info self args))) = num_qubits self
    /\ repr self = "cirq." ++ fst (circuit_diagram_info self args) ++ "()"
    /\ (circuit_diagram_info self args = circuit_diagram_info other args'
        <-> ob_type self = ob_type other).
Proof.
  intros Args [[ | ] i] [[ | ] j] args args'; repeat split;
    solve [ reflexivity | intros Habs; discriminate Habs ].
Qed.

(** X7: two gates have the same matrix up to a sign exactly when they are of
    the same class: the CZSWAP and the CXSWAP matrices differ, and differ
    still when one is negated. *)
Theorem unitary_determines_class :
  forall a b : GateObject,
    (exists (phase : Z) (ua ub : ndarray),
        Z.abs phase = 1
        /\ unitary a = Some ua
        /\ unitary b = Some ub
        /\ ua = map (scale phase) ub)
    <-> ob_type a = ob_type b.
Proof.
  intros [[ | ] i] [[ | ] j]; split;
    try (intros _; reflexivity);
    try (intros Habs; discriminate Habs);
    try (intros _; exists 1; do 2 eexists; repeat split; reflexivity);
    intros (phase & ua & ub & Hphase & Ha & Hb & Hscaled);
    cbv in Ha, Hb; injection Ha as <-; injection Hb as <-;
    assert (Hcases : phase = 1 \/ phase = -1) by lia;
    destruct Hcases as [-> | ->]; vm_compute in Hscaled; discriminate Hscaled.
Qed.
